(** * Rollout and placement policy of the ingress controller deployment

    A shallow embedding of
    [pkg/operator/controller/ingress/deployment-strategy.go]: the functions
    [foo], [singleReplica] and [determineDeploymentReplicas], together with
    the parts of the Kubernetes and OpenShift API types they read and write.

    Conventions of the embedding:
    - a Go [string]-based enumeration (strategy type, topology mode, placement,
      selector operator) is a [string], so that values outside the declared
      constants exist, as they do in Go;
    - [int32] is [Z]; the code only compares and copies such values;
    - a pointer field is an [option], [None] being [nil];
    - a slice is a [list] ([nil] and empty are both [[]]), except
      [LabelSelectorRequirement.Values], kept as an [option] because the code
      leaves it unset on purpose;
    - a [map[string]string] of labels is a [gmap string string];
    - the four arguments of [foo] are references to materialised objects; the
      deployment, which [foo] mutates in place, is threaded as state. *)

From Stdlib Require Import ZArith String List Bool Lia.
From stdpp Require Import base option list strings gmap.

Local Open Scope Z_scope.
Local Open Scope string_scope.

(** ** k8s.io/apimachinery/pkg/util/intstr *)
Module intstr.

(** [type Type int64], with [Int Type = iota] and [String]. *)
Inductive Type_ : Set := Int | String.

Record IntOrString : Set := {
  IntOrString_Type : Type_;
  IntOrString_IntVal : Z;
  IntOrString_StrVal : string }.

(** The conversion [int32(val)] of a Go [int]. *)
Definition int32 (val : Z) : Z := (val + 2 ^ 31) mod 2 ^ 32 - 2 ^ 31.

Definition FromInt (val : Z) : IntOrString :=
  {| IntOrString_Type := Int;
     IntOrString_IntVal := int32 val;
     IntOrString_StrVal := "" |}.

Definition FromString (val : string) : IntOrString :=
  {| IntOrString_Type := String;
     IntOrString_IntVal := 0;
     IntOrString_StrVal := val |}.

End intstr.

(** ** k8s.io/apimachinery/pkg/apis/meta/v1 *)
Module metav1.

Definition LabelSelectorOperator : Set := string.
Definition LabelSelectorOpIn : LabelSelectorOperator := "In".
Definition LabelSelectorOpNotIn : LabelSelectorOperator := "NotIn".
Definition LabelSelectorOpExists : LabelSelectorOperator := "Exists".
Definition LabelSelectorOpDoesNotExist : LabelSelectorOperator := "DoesNotExist".

Record LabelSelectorRequirement : Set := {
  LabelSelectorRequirement_Key : string;
  LabelSelectorRequirement_Operator : LabelSelectorOperator;
  LabelSelectorRequirement_Values : option (list string) }.

Record LabelSelector : Type := {
  LabelSelector_MatchLabels : gmap string string;
  LabelSelector_MatchExpressions : list LabelSelectorRequirement }.

End metav1.

(** ** k8s.io/api/core/v1 *)
Module corev1.

Record PodAffinityTerm : Type := {
  PodAffinityTerm_LabelSelector : option metav1.LabelSelector;
  PodAffinityTerm_Namespaces : list string;
  PodAffinityTerm_TopologyKey : string }.

Record WeightedPodAffinityTerm : Type := {
  WeightedPodAffinityTerm_Weight : Z;
  WeightedPodAffinityTerm_PodAffinityTerm : PodAffinityTerm }.

Record PodAffinity : Type := {
  PodAffinity_RequiredDuringSchedulingIgnoredDuringExecution :
    list PodAffinityTerm;
  PodAffinity_PreferredDuringSchedulingIgnoredDuringExecution :
    list WeightedPodAffinityTerm }.

Record PodAntiAffinity : Type := {
  PodAntiAffinity_RequiredDuringSchedulingIgnoredDuringExecution :
    list PodAffinityTerm;
  PodAntiAffinity_PreferredDuringSchedulingIgnoredDuringExecution :
    list WeightedPodAffinityTerm }.

(** Node affinity is never built by the code under study; its node selector
    terms are kept as plain lists of requirements. *)
Record NodeAffinity : Type := {
  NodeAffinity_NodeSelectorTerms : list (list metav1.LabelSelectorRequirement) }.

Record Affinity : Type := {
  Affinity_NodeAffinity : option NodeAffinity;
  Affinity_PodAffinity : option PodAffinity;
  Affinity_PodAntiAffinity : option PodAntiAffinity }.

Record PodSpec : Type := {
  PodSpec_NodeSelector : gmap string string;
  PodSpec_HostNetwork : bool;
  PodSpec_Affinity : option Affinity }.

Record PodTemplateSpec : Type := {
  PodTemplateSpec_Labels : gmap string string;
  PodTemplateSpec_Spec : PodSpec }.

(** [template.Spec.Affinity = a] *)
Definition PodTemplateSpec_set_Affinity
    (a : option Affinity) (template : PodTemplateSpec) : PodTemplateSpec :=
  {| PodTemplateSpec_Labels := PodTemplateSpec_Labels template;
     PodTemplateSpec_Spec :=
       {| PodSpec_NodeSelector :=
            PodSpec_NodeSelector (PodTemplateSpec_Spec template);
          PodSpec_HostNetwork :=
            PodSpec_HostNetwork (PodTemplateSpec_Spec template);
          PodSpec_Affinity := a |} |}.

End corev1.

(** ** k8s.io/api/apps/v1 *)
Module appsv1.

Definition DeploymentStrategyType : Set := string.
Definition RecreateDeploymentStrategyType : DeploymentStrategyType :=
  "Recreate".
Definition RollingUpdateDeploymentStrategyType : DeploymentStrategyType :=
  "RollingUpdate".

Record RollingUpdateDeployment : Set := {
  RollingUpdateDeployment_MaxUnavailable : option intstr.IntOrString;
  RollingUpdateDeployment_MaxSurge : option intstr.IntOrString }.

Record DeploymentStrategy : Set := {
  DeploymentStrategy_Type : DeploymentStrategyType;
  DeploymentStrategy_RollingUpdate : option RollingUpdateDeployment }.

Record DeploymentSpec : Type := {
  DeploymentSpec_Replicas : option Z;
  DeploymentSpec_Selector : option metav1.LabelSelector;
  DeploymentSpec_Template : corev1.PodTemplateSpec;
  DeploymentSpec_Strategy : DeploymentStrategy;
  DeploymentSpec_MinReadySeconds : Z }.

Record Deployment : Type := {
  Deployment_Name : string;
  Deployment_Labels : gmap string string;
  Deployment_Spec : DeploymentSpec }.

(** [deployment.Spec.Replicas = r] *)
Definition Deployment_set_Replicas
    (r : option Z) (deployment : Deployment) : Deployment :=
  let spec := Deployment_Spec deployment in
  {| Deployment_Name := Deployment_Name deployment;
     Deployment_Labels := Deployment_Labels deployment;
     Deployment_Spec :=
       {| DeploymentSpec_Replicas := r;
          DeploymentSpec_Selector := DeploymentSpec_Selector spec;
          DeploymentSpec_Template := DeploymentSpec_Template spec;
          DeploymentSpec_Strategy := DeploymentSpec_Strategy spec;
          DeploymentSpec_MinReadySeconds :=
            DeploymentSpec_MinReadySeconds spec |} |}.

(** [deployment.Spec.Strategy = s] *)
Definition Deployment_set_Strategy
    (s : DeploymentStrategy) (deployment : Deployment) : Deployment :=
  let spec := Deployment_Spec deployment in
  {| Deployment_Name := Deployment_Name deployment;
     Deployment_Labels := Deployment_Labels deployment;
     Deployment_Spec :=
       {| DeploymentSpec_Replicas := DeploymentSpec_Replicas spec;
          DeploymentSpec_Selector := DeploymentSpec_Selector spec;
          DeploymentSpec_Template := DeploymentSpec_Template spec;
          DeploymentSpec_Strategy := s;
          DeploymentSpec_MinReadySeconds :=
            DeploymentSpec_MinReadySeconds spec |} |}.

(** [deployment.Spec.Template.Spec.Affinity = a] *)
Definition Deployment_set_Affinity
    (a : option corev1.Affinity) (deployment : Deployment) : Deployment :=
  let spec := Deployment_Spec deployment in
  {| Deployment_Name := Deployment_Name deployment;
     Deployment_Labels := Deployment_Labels deployment;
     Deployment_Spec :=
       {| DeploymentSpec_Replicas := DeploymentSpec_Replicas spec;
          DeploymentSpec_Selector := DeploymentSpec_Selector spec;
          DeploymentSpec_Template :=
            corev1.PodTemplateSpec_set_Affinity
              a (DeploymentSpec_Template spec);
          DeploymentSpec_Strategy := DeploymentSpec_Strategy spec;
          DeploymentSpec_MinReadySeconds :=
            DeploymentSpec_MinReadySeconds spec |} |}.

(** The three fields the policy is about, read back from a deployment. *)
Definition replicas (deployment : Deployment) : option Z :=
  DeploymentSpec_Replicas (Deployment_Spec deployment).

Definition strategy (deployment : Deployment) : DeploymentStrategy :=
  DeploymentSpec_Strategy (Deployment_Spec deployment).

Definition affinity (deployment : Deployment) : option corev1.Affinity :=
  corev1.PodSpec_Affinity
    (corev1.PodTemplateSpec_Spec
       (DeploymentSpec_Template (Deployment_Spec deployment))).

End appsv1.

(** ** github.com/openshift/api/operator/v1 *)
Module operatorv1.

Definition EndpointPublishingStrategyType : Set := string.
Definition LoadBalancerServiceStrategyType : EndpointPublishingStrategyType :=
  "LoadBalancerService".
Definition HostNetworkStrategyType : EndpointPublishingStrategyType :=
  "HostNetwork".
Definition PrivateStrategyType : EndpointPublishingStrategyType :=
  "Private".
Definition NodePortServiceStrategyType : EndpointPublishingStrategyType :=
  "NodePortService".

Record EndpointPublishingStrategy : Set := {
  EndpointPublishingStrategy_Type : EndpointPublishingStrategyType }.

Record IngressControllerSpec : Set := {
  IngressControllerSpec_Replicas : option Z }.

Record IngressControllerStatus : Set := {
  IngressControllerStatus_EndpointPublishingStrategy :
    option EndpointPublishingStrategy }.

Record IngressController : Set := {
  IngressController_Name : string;
  IngressController_Spec : IngressControllerSpec;
  IngressController_Status : IngressControllerStatus }.

End operatorv1.

(** ** github.com/openshift/api/config/v1 *)
Module configv1.

Definition TopologyMode : Set := string.
Definition HighlyAvailableTopologyMode : TopologyMode := "HighlyAvailable".
Definition SingleReplicaTopologyMode : TopologyMode := "SingleReplica".

Definition DefaultPlacement : Set := string.
Definition DefaultPlacementWorkers : DefaultPlacement := "Workers".
Definition DefaultPlacementControlPlane : DefaultPlacement := "ControlPlane".

Record InfrastructureStatus : Set := {
  InfrastructureStatus_ControlPlaneTopology : TopologyMode;
  InfrastructureStatus_InfrastructureTopology : TopologyMode }.

Record Infrastructure : Set := {
  Infrastructure_Status : InfrastructureStatus }.

Record IngressStatus : Set := {
  IngressStatus_DefaultPlacement : DefaultPlacement }.

Record Ingress : Set := {
  Ingress_Status : IngressStatus }.

End configv1.

(** ** Execution model

    [foo] writes into the deployment it is handed and may stop on a nil
    pointer dereference. A computation therefore maps the deployment before
    to an outcome and the deployment after; the writes made before a panic
    stay in the deployment. *)

Inductive outcome (A : Type) : Type :=
  | Returned (a : A)
  | Panicked.
Arguments Returned {A} a.
Arguments Panicked {A}.

Definition Exec (A : Type) : Type :=
  appsv1.Deployment -> outcome A * appsv1.Deployment.

#[global] Instance Exec_ret : MRet Exec :=
  fun A a deployment => (Returned a, deployment).

#[global] Instance Exec_bind : MBind Exec :=
  fun A B k m deployment =>
    match m deployment with
    | (Returned a, deployment') => k a deployment'
    | (Panicked, deployment') => (Panicked, deployment')
    end.

(** An assignment to a field of the deployment. *)
Definition assign (f : appsv1.Deployment -> appsv1.Deployment) : Exec unit :=
  fun deployment => (Returned tt, f deployment).

(** Reading through a pointer: [nil] panics. *)
Definition deref {A : Type} (p : option A) : Exec A :=
  fun deployment =>
    match p with
    | Some a => (Returned a, deployment)
    | None => (Panicked, deployment)
    end.

(** The deployment as a fresh object has it: every field at its zero value. *)
Definition zeroDeployment : appsv1.Deployment :=
  {| appsv1.Deployment_Name := "";
     appsv1.Deployment_Labels := ∅;
     appsv1.Deployment_Spec :=
       {| appsv1.DeploymentSpec_Replicas := None;
          appsv1.DeploymentSpec_Selector := None;
          appsv1.DeploymentSpec_Template :=
            {| corev1.PodTemplateSpec_Labels := ∅;
               corev1.PodTemplateSpec_Spec :=
                 {| corev1.PodSpec_NodeSelector := ∅;
                    corev1.PodSpec_HostNetwork := false;
                    corev1.PodSpec_Affinity := None |} |};
          appsv1.DeploymentSpec_Strategy :=
            {| appsv1.DeploymentStrategy_Type := "";
               appsv1.DeploymentStrategy_RollingUpdate := None |};
          appsv1.DeploymentSpec_MinReadySeconds := 0 |} |}.

(** ** k8s.io/apimachinery/pkg/labels

    How the scheduler reads a selector against the labels of a pod
    ([Requirement.Matches] and the conjunction of requirements built by
    [LabelSelectorAsSelector]); used only to spell out what the
    controller-deployment requirement buys. *)
Module labels.

Definition hasValue
    (requirement : metav1.LabelSelectorRequirement) (value : string) : bool :=
  bool_decide
    (value ∈ default [] (metav1.LabelSelectorRequirement_Values requirement)).

Definition Matches
    (requirement : metav1.LabelSelectorRequirement)
    (ls : gmap string string) : bool :=
  let key := metav1.LabelSelectorRequirement_Key requirement in
  let operator := metav1.LabelSelectorRequirement_Operator requirement in
  if operator =? metav1.LabelSelectorOpIn then
    match ls !! key with
    | Some value => hasValue requirement value
    | None => false
    end
  else if operator =? metav1.LabelSelectorOpNotIn then
    match ls !! key with
    | Some value => negb (hasValue requirement value)
    | None => true
    end
  else if operator =? metav1.LabelSelectorOpExists then
    bool_decide (is_Some (ls !! key))
  else if operator =? metav1.LabelSelectorOpDoesNotExist then
    bool_decide (ls !! key = None)
  else false.

(** Every [MatchLabels] pair and every [MatchExpressions] requirement has
    to hold. *)
Definition selectorMatches
    (selector : metav1.LabelSelector) (ls : gmap string string) : bool :=
  bool_decide (metav1.LabelSelector_MatchLabels selector ⊆ ls)
  && forallb (fun requirement => Matches requirement ls)
       (metav1.LabelSelector_MatchExpressions selector).

End labels.

(** ** Concrete inputs

    An instance of the parameters and a few objects on which the definitions
    are run. *)

Definition exampleDeploymentLabel : string :=
  "ingresscontroller.operator.openshift.io/deployment-ingresscontroller".

Definition exampleHashLabel : string :=
  "ingresscontroller.operator.openshift.io/hash".

Definition exampleDeploymentLabelOf (ic : operatorv1.IngressController)
    : string :=
  operatorv1.IngressController_Name ic.

Definition exampleDetermineReplicas
    (ingressConfig : configv1.Ingress) (infraConfig : configv1.Infrastructure)
    : Z :=
  2.

Definition exampleController
    (replicas : option Z)
    (type : option operatorv1.EndpointPublishingStrategyType)
    : operatorv1.IngressController :=
  {| operatorv1.IngressController_Name := "default";
     operatorv1.IngressController_Spec :=
       {| operatorv1.IngressControllerSpec_Replicas := replicas |};
     operatorv1.IngressController_Status :=
       {| operatorv1.IngressControllerStatus_EndpointPublishingStrategy :=
            operatorv1.Build_EndpointPublishingStrategy <$> type |} |}.

Definition exampleIngress (placement : configv1.DefaultPlacement)
    : configv1.Ingress :=
  {| configv1.Ingress_Status :=
       {| configv1.IngressStatus_DefaultPlacement := placement |} |}.

Definition exampleInfrastructure
    (controlPlaneTopology infrastructureTopology : configv1.TopologyMode)
    : configv1.Infrastructure :=
  {| configv1.Infrastructure_Status :=
       {| configv1.InfrastructureStatus_ControlPlaneTopology :=
            controlPlaneTopology;
          configv1.InfrastructureStatus_InfrastructureTopology :=
            infrastructureTopology |} |}.

(** A deployment that already carries a rolling strategy and an (empty)
    affinity record, as one read back from the cluster may. *)
Definition examplePopulatedDeployment : appsv1.Deployment :=
  appsv1.Deployment_set_Affinity
    (Some {| corev1.Affinity_NodeAffinity := None;
             corev1.Affinity_PodAffinity := None;
             corev1.Affinity_PodAntiAffinity := None |})
    (appsv1.Deployment_set_Strategy
       {| appsv1.DeploymentStrategy_Type :=
            appsv1.RecreateDeploymentStrategyType;
          appsv1.DeploymentStrategy_RollingUpdate := None |}
       zeroDeployment).

(** ** The policy *)

Section Policy.

(** Package [controller] ([pkg/operator/controller]) and the default
    replica policy [DetermineReplicas] of package [ingress] are outside the
    file under study: their constants and functions are parameters. *)
Variable ControllerDeploymentLabel : string.
Variable ControllerDeploymentHashLabel : string.
Variable IngressControllerDeploymentLabel :
  operatorv1.IngressController -> string.
Variable DetermineReplicas :
  configv1.Ingress -> configv1.Infrastructure -> Z.

Definition singleReplica
    (ingressConfig : configv1.Ingress)
    (infraConfig : configv1.Infrastructure) : bool :=
  let topology :=
    configv1.InfrastructureStatus_InfrastructureTopology
      (configv1.Infrastructure_Status infraConfig) in
  let topology :=
    if configv1.IngressStatus_DefaultPlacement
         (configv1.Ingress_Status ingressConfig)
       =? configv1.DefaultPlacementControlPlane
    then configv1.InfrastructureStatus_ControlPlaneTopology
           (configv1.Infrastructure_Status infraConfig)
    else topology in
  topology =? configv1.SingleReplicaTopologyMode.

Definition determineDeploymentReplicas
    (ic : operatorv1.IngressController)
    (ingressConfig : configv1.Ingress)
    (infraConfig : configv1.Infrastructure) : Z :=
  match operatorv1.IngressControllerSpec_Replicas
          (operatorv1.IngressController_Spec ic) with
  | Some replicas => replicas
  | None => DetermineReplicas ingressConfig infraConfig
  end.

Definition foo
    (ci : operatorv1.IngressController)
    (ingressConfig : configv1.Ingress)
    (infraConfig : configv1.Infrastructure) : Exec bool :=
  let desiredReplicas :=
    determineDeploymentReplicas ci ingressConfig infraConfig in
  assign (appsv1.Deployment_set_Replicas (Some desiredReplicas));;
  if singleReplica ingressConfig infraConfig then
    mret false
  else
    endpointPublishingStrategy ←
      deref (operatorv1.IngressControllerStatus_EndpointPublishingStrategy
               (operatorv1.IngressController_Status ci));
    let type :=
      operatorv1.EndpointPublishingStrategy_Type endpointPublishingStrategy in
    if type =? operatorv1.HostNetworkStrategyType then
      assign (appsv1.Deployment_set_Strategy
        {| appsv1.DeploymentStrategy_Type :=
             appsv1.RollingUpdateDeploymentStrategyType;
           appsv1.DeploymentStrategy_RollingUpdate := Some
             {| appsv1.RollingUpdateDeployment_MaxUnavailable :=
                  Some (intstr.FromString "25%");
                appsv1.RollingUpdateDeployment_MaxSurge :=
                  Some (intstr.FromInt 0) |} |});;
      mret false
    else if (type =? operatorv1.PrivateStrategyType)
            || (type =? operatorv1.LoadBalancerServiceStrategyType)
            || (type =? operatorv1.NodePortServiceStrategyType) then
      let maxUnavailable :=
        if desiredReplicas >=? 4 then "25%" else "50%" in
      assign (appsv1.Deployment_set_Strategy
        {| appsv1.DeploymentStrategy_Type :=
             appsv1.RollingUpdateDeploymentStrategyType;
           appsv1.DeploymentStrategy_RollingUpdate := Some
             {| appsv1.RollingUpdateDeployment_MaxUnavailable :=
                  Some (intstr.FromString maxUnavailable);
                appsv1.RollingUpdateDeployment_MaxSurge :=
                  Some (intstr.FromString "25%") |} |});;
      assign (appsv1.Deployment_set_Affinity (Some
        {| corev1.Affinity_NodeAffinity := None;
           corev1.Affinity_PodAffinity := Some
             {| corev1.PodAffinity_RequiredDuringSchedulingIgnoredDuringExecution := [];
                corev1.PodAffinity_PreferredDuringSchedulingIgnoredDuringExecution := [
                  {| corev1.WeightedPodAffinityTerm_Weight := 100;
                     corev1.WeightedPodAffinityTerm_PodAffinityTerm :=
                       {| corev1.PodAffinityTerm_LabelSelector := Some
                            {| metav1.LabelSelector_MatchLabels := ∅;
                               metav1.LabelSelector_MatchExpressions := [
                                 {| metav1.LabelSelectorRequirement_Key :=
                                      ControllerDeploymentLabel;
                                    metav1.LabelSelectorRequirement_Operator :=
                                      metav1.LabelSelectorOpIn;
                                    metav1.LabelSelectorRequirement_Values :=
                                      Some [IngressControllerDeploymentLabel ci] |};
                                 {| metav1.LabelSelectorRequirement_Key :=
                                      ControllerDeploymentHashLabel;
                                    metav1.LabelSelectorRequirement_Operator :=
                                      metav1.LabelSelectorOpNotIn;
                                    metav1.LabelSelectorRequirement_Values :=
                                      None |} ] |};
                          corev1.PodAffinityTerm_Namespaces := [];
                          corev1.PodAffinityTerm_TopologyKey :=
                            "kubernetes.io/hostname" |} |} ] |};
           corev1.Affinity_PodAntiAffinity := Some
             {| corev1.PodAntiAffinity_RequiredDuringSchedulingIgnoredDuringExecution := [
                  {| corev1.PodAffinityTerm_LabelSelector := Some
                       {| metav1.LabelSelector_MatchLabels := ∅;
                          metav1.LabelSelector_MatchExpressions := [
                            {| metav1.LabelSelectorRequirement_Key :=
                                 ControllerDeploymentLabel;
                               metav1.LabelSelectorRequirement_Operator :=
                                 metav1.LabelSelectorOpIn;
                               metav1.LabelSelectorRequirement_Values :=
                                 Some [IngressControllerDeploymentLabel ci] |};
                            {| metav1.LabelSelectorRequirement_Key :=
                                 ControllerDeploymentHashLabel;
                               metav1.LabelSelectorRequirement_Operator :=
                                 metav1.LabelSelectorOpIn;
                               metav1.LabelSelectorRequirement_Values :=
                                 None |} ] |};
                     corev1.PodAffinityTerm_Namespaces := [];
                     corev1.PodAffinityTerm_TopologyKey :=
                       "kubernetes.io/hostname" |} ];
                corev1.PodAntiAffinity_PreferredDuringSchedulingIgnoredDuringExecution := []
             |} |}));;
      mret true
    else
      mret false.

(** *** Reading the inputs and the outputs *)

(** The scrutinee of the switch, [ci.Status.EndpointPublishingStrategy.Type];
    [None] when the strategy pointer is nil. *)
Definition endpointPublishingStrategyType
    (ci : operatorv1.IngressController)
    : option operatorv1.EndpointPublishingStrategyType :=
  operatorv1.EndpointPublishingStrategy_Type <$>
    operatorv1.IngressControllerStatus_EndpointPublishingStrategy
      (operatorv1.IngressController_Status ci).

(** [deployment.Spec.Strategy.RollingUpdate.MaxSurge], nil when either
    pointer on the way is. *)
Definition maxSurge (deployment : appsv1.Deployment)
    : option intstr.IntOrString :=
  appsv1.DeploymentStrategy_RollingUpdate (appsv1.strategy deployment)
    ≫= appsv1.RollingUpdateDeployment_MaxSurge.

Definition maxUnavailable (deployment : appsv1.Deployment)
    : option intstr.IntOrString :=
  appsv1.DeploymentStrategy_RollingUpdate (appsv1.strategy deployment)
    ≫= appsv1.RollingUpdateDeployment_MaxUnavailable.

(** The topology field that governs placement, in the words of the
    specification: the control-plane topology under control-plane
    placement, the infrastructure topology otherwise. *)
Definition governingTopology
    (ingressConfig : configv1.Ingress)
    (infraConfig : configv1.Infrastructure) : configv1.TopologyMode :=
  if decide (configv1.IngressStatus_DefaultPlacement
               (configv1.Ingress_Status ingressConfig)
             = configv1.DefaultPlacementControlPlane)
  then configv1.InfrastructureStatus_ControlPlaneTopology
         (configv1.Infrastructure_Status infraConfig)
  else configv1.InfrastructureStatus_InfrastructureTopology
         (configv1.Infrastructure_Status infraConfig).

(** *** The shape of the affinity terms *)

(** A requirement on the generation-hash label with operator [operator]
    whose [Values] are unset. *)
Definition generationHashRequirement
    (operator : metav1.LabelSelectorOperator)
    (requirement : metav1.LabelSelectorRequirement) : Prop :=
  metav1.LabelSelectorRequirement_Key requirement
  = ControllerDeploymentHashLabel /\
  metav1.LabelSelectorRequirement_Operator requirement = operator /\
  metav1.LabelSelectorRequirement_Values requirement = None.

(** A requirement that the controller-deployment label be that of [ci]. *)
Definition ownDeploymentRequirement
    (ci : operatorv1.IngressController)
    (requirement : metav1.LabelSelectorRequirement) : Prop :=
  metav1.LabelSelectorRequirement_Key requirement
  = ControllerDeploymentLabel /\
  metav1.LabelSelectorRequirement_Operator requirement
  = metav1.LabelSelectorOpIn /\
  metav1.LabelSelectorRequirement_Values requirement
  = Some [IngressControllerDeploymentLabel ci].

(** The label selector of [term] lists a requirement satisfying [P]. *)
Definition carries
    (P : metav1.LabelSelectorRequirement -> Prop)
    (term : corev1.PodAffinityTerm) : Prop :=
  exists selector requirement,
    corev1.PodAffinityTerm_LabelSelector term = Some selector /\
    requirement ∈ metav1.LabelSelector_MatchExpressions selector /\
    P requirement.

(** *** Surge and the affinity policy *)

Definition surgeFamily (type : operatorv1.EndpointPublishingStrategyType)
    : Prop :=
  type = operatorv1.PrivateStrategyType \/
  type = operatorv1.LoadBalancerServiceStrategyType \/
  type = operatorv1.NodePortServiceStrategyType.

(** The deployment allows a surge: [MaxSurge] is set, and not to the
    absolute value 0. *)
Definition surgeNonzero (deployment : appsv1.Deployment) : Prop :=
  exists surge,
    maxSurge deployment = Some surge /\ surge <> intstr.FromInt 0.

Definition rollingWithSurge (deployment : appsv1.Deployment) : Prop :=
  appsv1.DeploymentStrategy_Type (appsv1.strategy deployment)
  = appsv1.RollingUpdateDeploymentStrategyType /\
  surgeNonzero deployment.

(** What the invariant says of one call that returned [configureAffinity]
    and left [deployment']: affinity, flag, surge and strategy family go
    together. *)
Definition affinityFollowsSurge
    (ci : operatorv1.IngressController)
    (ingressConfig : configv1.Ingress)
    (infraConfig : configv1.Infrastructure)
    (configureAffinity : bool) (deployment' : appsv1.Deployment) : Prop :=
  (is_Some (appsv1.affinity deployment') <-> configureAffinity = true) /\
  (configureAffinity = true <-> rollingWithSurge deployment') /\
  (rollingWithSurge deployment' <->
   singleReplica ingressConfig infraConfig = false /\
   exists type,
     endpointPublishingStrategyType ci = Some type /\ surgeFamily type) /\
  (endpointPublishingStrategyType ci
   = Some operatorv1.HostNetworkStrategyType ->
   appsv1.affinity deployment' = None) /\
  (singleReplica ingressConfig infraConfig = true ->
   appsv1.affinity deployment' = None) /\
  (surgeNonzero deployment' -> is_Some (appsv1.affinity deployment')).

(** The invariant as the specification words it, at one input: the call
    returns, affinity follows surge, and a HostNetwork controller has its
    surge set to the absolute value 0 whatever the topology. *)
Definition affinityFollowsSurge_HostNetworkAlwaysZero
    (ci : operatorv1.IngressController)
    (ingressConfig : configv1.Ingress)
    (infraConfig : configv1.Infrastructure)
    (deployment : appsv1.Deployment) : Prop :=
  exists configureAffinity deployment',
    foo ci ingressConfig infraConfig deployment
    = (Returned configureAffinity, deployment') /\
    affinityFollowsSurge
      ci ingressConfig infraConfig configureAffinity deployment' /\
    (endpointPublishingStrategyType ci
     = Some operatorv1.HostNetworkStrategyType ->
     maxSurge deployment' = Some (intstr.FromInt 0)).

(** *** The rest of the deployment *)

(** Everything in a deployment but the replica count, the update strategy
    and the affinity. *)
Definition otherFields (deployment : appsv1.Deployment)
    : string * gmap string string * option metav1.LabelSelector * Z
      * gmap string string * gmap string string * bool :=
  let spec := appsv1.Deployment_Spec deployment in
  let template := appsv1.DeploymentSpec_Template spec in
  (appsv1.Deployment_Name deployment,
   appsv1.Deployment_Labels deployment,
   appsv1.DeploymentSpec_Selector spec,
   appsv1.DeploymentSpec_MinReadySeconds spec,
   corev1.PodTemplateSpec_Labels template,
   corev1.PodSpec_NodeSelector (corev1.PodTemplateSpec_Spec template),
   corev1.PodSpec_HostNetwork (corev1.PodTemplateSpec_Spec template)).

(** *** Running [foo] one branch at a time *)

Ltac unfold_exec :=
  unfold foo, mbind, mret, Exec_bind, Exec_ret, assign, deref.

(** Turns [endpointPublishingStrategyType ci = Some t] into the strategy
    record it speaks about. *)
Ltac reveal_strategy H :=
  unfold endpointPublishingStrategyType in H;
  destruct (operatorv1.IngressControllerStatus_EndpointPublishingStrategy
              (operatorv1.IngressController_Status _)) as [?eps|] eqn:?Hptr;
  simpl in H; [injection H as H | discriminate H].

(** Runs [foo] into the case of the surge family, given the outcome of the
    two tests of the switch. *)
Ltac run_surge_family Hsingle Htype Hnothost Hcase :=
  reveal_strategy Htype; subst;
  unfold_exec;
  match goal with
  | Hptr : operatorv1.IngressControllerStatus_EndpointPublishingStrategy _
           = Some _ |- _ => rewrite Hsingle, Hptr, Hnothost, Hcase
  end.

(** Splits a goal about [foo ci ingressConfig infraConfig] along the paths
    of the function: single-replica, nil strategy, HostNetwork, surge family
    and any other type. *)
Ltac foo_paths ci ingressConfig infraConfig :=
  unfold_exec;
  destruct (singleReplica ingressConfig infraConfig) eqn:?Hsingle;
  [| destruct (operatorv1.IngressControllerStatus_EndpointPublishingStrategy
                 (operatorv1.IngressController_Status ci))
       as [?eps|] eqn:?Hptr;
     [ destruct (operatorv1.EndpointPublishingStrategy_Type _
                 =? operatorv1.HostNetworkStrategyType) eqn:?Hhost;
       [| destruct (_ || _) eqn:?Hcase ] |] ].

Lemma foo_singleReplica ci ingressConfig infraConfig deployment :
  singleReplica ingressConfig infraConfig = true ->
  foo ci ingressConfig infraConfig deployment =
    (Returned false,
     appsv1.Deployment_set_Replicas
       (Some (determineDeploymentReplicas ci ingressConfig infraConfig))
       deployment).
Proof. intros Hsingle. unfold_exec. now rewrite Hsingle. Qed.

Lemma foo_nil_strategy ci ingressConfig infraConfig deployment :
  singleReplica ingressConfig infraConfig = false ->
  endpointPublishingStrategyType ci = None ->
  foo ci ingressConfig infraConfig deployment =
    (Panicked,
     appsv1.Deployment_set_Replicas
       (Some (determineDeploymentReplicas ci ingressConfig infraConfig))
       deployment).
Proof.
  intros Hsingle Hnil. unfold_exec. rewrite Hsingle.
  unfold endpointPublishingStrategyType in Hnil.
  destruct (operatorv1.IngressControllerStatus_EndpointPublishingStrategy _);
    [discriminate Hnil | reflexivity].
Qed.

Lemma foo_other_type ci ingressConfig infraConfig deployment type :
  singleReplica ingressConfig infraConfig = false ->
  endpointPublishingStrategyType ci = Some type ->
  type <> operatorv1.HostNetworkStrategyType ->
  type <> operatorv1.PrivateStrategyType ->
  type <> operatorv1.LoadBalancerServiceStrategyType ->
  type <> operatorv1.NodePortServiceStrategyType ->
  foo ci ingressConfig infraConfig deployment =
    (Returned false,
     appsv1.Deployment_set_Replicas
       (Some (determineDeploymentReplicas ci ingressConfig infraConfig))
       deployment).
Proof.
  intros Hsingle Htype Hhost Hprivate Hlb Hnodeport.
  reveal_strategy Htype. subst type.
  unfold_exec. rewrite Hsingle, Hptr.
  apply String.eqb_neq in Hhost, Hprivate, Hlb, Hnodeport.
  now rewrite Hhost, Hprivate, Hlb, Hnodeport.
Qed.

(** The fields written by the three assignments of [foo] are independent. *)
Lemma strategy_set_Replicas r deployment :
  appsv1.strategy (appsv1.Deployment_set_Replicas r deployment)
  = appsv1.strategy deployment.
Proof. reflexivity. Qed.

Lemma affinity_set_Replicas r deployment :
  appsv1.affinity (appsv1.Deployment_set_Replicas r deployment)
  = appsv1.affinity deployment.
Proof. reflexivity. Qed.

Lemma affinity_set_Strategy s deployment :
  appsv1.affinity (appsv1.Deployment_set_Strategy s deployment)
  = appsv1.affinity deployment.
Proof. reflexivity. Qed.

Lemma replicas_set_Strategy s deployment :
  appsv1.replicas (appsv1.Deployment_set_Strategy s deployment)
  = appsv1.replicas deployment.
Proof. reflexivity. Qed.

Lemma replicas_set_Affinity a deployment :
  appsv1.replicas (appsv1.Deployment_set_Affinity a deployment)
  = appsv1.replicas deployment.
Proof. reflexivity. Qed.

(** [singleReplica] reads the governing topology field and nothing else. *)
Lemma singleReplica_governingTopology ingressConfig infraConfig :
  singleReplica ingressConfig infraConfig = true <->
  governingTopology ingressConfig infraConfig
  = configv1.SingleReplicaTopologyMode.
Proof.
  unfold singleReplica, governingTopology.
  destruct (decide _) as [Hplacement | Hplacement].
  - rewrite Hplacement, String.eqb_refl. apply String.eqb_eq.
  - apply String.eqb_neq in Hplacement. rewrite Hplacement.
    apply String.eqb_eq.
Qed.

(** Every path of [foo] goes through the first assignment, and no later
    one touches the replica field. *)
Lemma replicas_after_foo ci ingressConfig infraConfig deployment :
  appsv1.replicas (foo ci ingressConfig infraConfig deployment).2
  = Some (determineDeploymentReplicas ci ingressConfig infraConfig).
Proof.
  unfold_exec.
  destruct (singleReplica ingressConfig infraConfig); [reflexivity |].
  destruct (operatorv1.IngressControllerStatus_EndpointPublishingStrategy _)
    as [eps|]; [| reflexivity].
  destruct (_ =? operatorv1.HostNetworkStrategyType); [reflexivity |].
  destruct (_ || _); reflexivity.
Qed.

(** C6. The resolved replica count is written to the deployment on every
    path: whatever the inputs, whichever branch is taken, and also when
    [foo] stops on a nil strategy pointer, the call ends in some outcome
    with a deployment whose replica field holds
    [determineDeploymentReplicas ci ingressConfig infraConfig]. *)
Theorem replicas_always_written ci ingressConfig infraConfig deployment :
  exists result deployment',
    foo ci ingressConfig infraConfig deployment = (result, deployment') /\
    appsv1.replicas deployment'
    = Some (determineDeploymentReplicas ci ingressConfig infraConfig).
Proof.
  exists (foo ci ingressConfig infraConfig deployment).1,
         (foo ci ingressConfig infraConfig deployment).2.
  split; [now destruct (foo _ _ _ _) | apply replicas_after_foo].
Qed.

(** C4. The topology resolves to single-replica exactly when the governing
    field (control-plane topology under control-plane placement,
    infrastructure topology otherwise) equals the single-replica mode, so
    any other value counts as not single-replica. When it does, [foo]
    returns [false] for any strategy type (a nil strategy included) and
    leaves the update strategy and the affinity of the deployment as they
    were: nothing is overridden. *)
Theorem single_replica_no_override ci ingressConfig infraConfig deployment :
  (singleReplica ingressConfig infraConfig = true <->
   governingTopology ingressConfig infraConfig
   = configv1.SingleReplicaTopologyMode) /\
  (governingTopology ingressConfig infraConfig
   <> configv1.SingleReplicaTopologyMode ->
   singleReplica ingressConfig infraConfig = false) /\
  (governingTopology ingressConfig infraConfig
   = configv1.SingleReplicaTopologyMode ->
   exists deployment',
     foo ci ingressConfig infraConfig deployment
     = (Returned false, deployment') /\
     appsv1.strategy deployment' = appsv1.strategy deployment /\
     appsv1.affinity deployment' = appsv1.affinity deployment).
Proof.
  pose proof (singleReplica_governingTopology ingressConfig infraConfig)
    as Hiff.
  split; [exact Hiff | split].
  - intros Hne. destruct (singleReplica ingressConfig infraConfig) eqn:E;
      [| reflexivity].
    exfalso. apply Hne, Hiff. reflexivity.
  - intros Hsingle. apply Hiff in Hsingle.
    eexists. split; [now apply foo_singleReplica |].
    split; reflexivity.
Qed.

(** C9. [foo] is total on well-formed inputs: when the topology is
    single-replica, or the status carries an endpoint publishing strategy,
    the call returns a flag and a deployment and does not panic. *)
Theorem foo_total ci ingressConfig infraConfig deployment :
  singleReplica ingressConfig infraConfig = true \/
  is_Some (endpointPublishingStrategyType ci) ->
  exists configureAffinity deployment',
    foo ci ingressConfig infraConfig deployment
    = (Returned configureAffinity, deployment').
Proof.
  intros Hwf.
  destruct (singleReplica ingressConfig infraConfig) eqn:Hsingle.
  - eexists _, _. now apply foo_singleReplica.
  - destruct Hwf as [Hwf | [type Htype]]; [discriminate Hwf |].
    reveal_strategy Htype. unfold_exec. rewrite Hsingle, Hptr.
    destruct (_ =? operatorv1.HostNetworkStrategyType);
      [eexists _, _; reflexivity |].
    destruct (_ || _); eexists _, _; reflexivity.
Qed.

(** The two tests of the switch, read off a strategy type. *)
Lemma surgeFamily_dispatch type :
  surgeFamily type ->
  (type =? operatorv1.HostNetworkStrategyType) = false /\
  (type =? operatorv1.PrivateStrategyType)
  || (type =? operatorv1.LoadBalancerServiceStrategyType)
  || (type =? operatorv1.NodePortServiceStrategyType) = true.
Proof. intros [-> | [-> | ->]]; split; reflexivity. Qed.

Lemma dispatch_surgeFamily type :
  (type =? operatorv1.PrivateStrategyType)
  || (type =? operatorv1.LoadBalancerServiceStrategyType)
  || (type =? operatorv1.NodePortServiceStrategyType) = true ->
  surgeFamily type.
Proof.
  unfold surgeFamily. rewrite !orb_true_iff, !String.eqb_eq. tauto.
Qed.

(** C1. For a Private, LoadBalancerService or NodePortService controller
    on a topology that is not single-replica, [foo] returns and the
    deployment has the rolling update strategy with [MaxSurge] the
    percentage 25% and [MaxUnavailable] the percentage 50% when the resolved
    replica count is below 4 and 25% from 4 on. *)
Theorem surge_family_update_strategy
    ci ingressConfig infraConfig deployment type :
  singleReplica ingressConfig infraConfig = false ->
  endpointPublishingStrategyType ci = Some type ->
  surgeFamily type ->
  exists configureAffinity deployment',
    foo ci ingressConfig infraConfig deployment
    = (Returned configureAffinity, deployment') /\
    appsv1.DeploymentStrategy_Type (appsv1.strategy deployment')
    = appsv1.RollingUpdateDeploymentStrategyType /\
    maxSurge deployment' = Some (intstr.FromString "25%") /\
    (determineDeploymentReplicas ci ingressConfig infraConfig < 4 ->
     maxUnavailable deployment' = Some (intstr.FromString "50%")) /\
    (4 <= determineDeploymentReplicas ci ingressConfig infraConfig ->
     maxUnavailable deployment' = Some (intstr.FromString "25%")).
Proof.
  intros Hsingle Htype Hfamily.
  destruct (surgeFamily_dispatch _ Hfamily) as [Hnothost Hcase].
  run_surge_family Hsingle Htype Hnothost Hcase.
  eexists _, _. split; [reflexivity |].
  split; [reflexivity |]. split; [reflexivity |].
  unfold maxUnavailable; simpl.
  destruct (determineDeploymentReplicas ci ingressConfig infraConfig >=? 4)
    eqn:Hge.
  - apply Z.geb_le in Hge. split; [lia | reflexivity].
  - rewrite Z.geb_leb in Hge. apply Z.leb_gt in Hge.
    split; [reflexivity | lia].
Qed.

(** C5. For a HostNetwork controller on a topology that is not
    single-replica, [foo] returns [false], the deployment has the rolling
    update strategy with [MaxUnavailable] the percentage 25% and [MaxSurge]
    the absolute value 0, and its affinity is left as it was, whatever the
    replica count and the placement. *)
Theorem host_network_update_strategy
    ci ingressConfig infraConfig deployment :
  singleReplica ingressConfig infraConfig = false ->
  endpointPublishingStrategyType ci
  = Some operatorv1.HostNetworkStrategyType ->
  exists deployment',
    foo ci ingressConfig infraConfig deployment
    = (Returned false, deployment') /\
    appsv1.DeploymentStrategy_Type (appsv1.strategy deployment')
    = appsv1.RollingUpdateDeploymentStrategyType /\
    maxUnavailable deployment' = Some (intstr.FromString "25%") /\
    maxSurge deployment'
    = Some {| intstr.IntOrString_Type := intstr.Int;
              intstr.IntOrString_IntVal := 0;
              intstr.IntOrString_StrVal := "" |} /\
    appsv1.affinity deployment' = appsv1.affinity deployment.
Proof.
  intros Hsingle Htype. reveal_strategy Htype.
  unfold_exec. rewrite Hsingle, Hptr, Htype. simpl.
  eexists. repeat split; reflexivity.
Qed.

(** C8. For a controller whose strategy type is none of HostNetwork,
    Private, LoadBalancerService and NodePortService, on a topology that is
    not single-replica, [foo] returns [false] and the update strategy and
    the affinity of the deployment are exactly those supplied. *)
Theorem unrecognized_type_no_override
    ci ingressConfig infraConfig deployment type :
  singleReplica ingressConfig infraConfig = false ->
  endpointPublishingStrategyType ci = Some type ->
  type <> operatorv1.HostNetworkStrategyType ->
  type <> operatorv1.PrivateStrategyType ->
  type <> operatorv1.LoadBalancerServiceStrategyType ->
  type <> operatorv1.NodePortServiceStrategyType ->
  exists deployment',
    foo ci ingressConfig infraConfig deployment
    = (Returned false, deployment') /\
    appsv1.strategy deployment' = appsv1.strategy deployment /\
    appsv1.affinity deployment' = appsv1.affinity deployment.
Proof.
  intros Hsingle Htype Hhost Hprivate Hlb Hnodeport.
  eexists. split; [now apply (foo_other_type _ _ _ _ type) |].
  split; reflexivity.
Qed.

(** C2. For a Private, LoadBalancerService or NodePortService controller
    on a topology that is not single-replica, [foo] returns [true] and the
    affinity of the deployment has exactly one preferred pod-affinity term,
    of weight 100, keyed on the node hostname and carrying a NotIn
    requirement on the generation-hash label, and exactly one required
    pod-anti-affinity term, keyed on the node hostname and carrying an In
    requirement on the generation-hash label; both requirements have their
    [Values] unset. Nothing else is in the affinity record. *)
Theorem surge_family_affinity
    ci ingressConfig infraConfig deployment type :
  singleReplica ingressConfig infraConfig = false ->
  endpointPublishingStrategyType ci = Some type ->
  surgeFamily type ->
  exists deployment' affinity podAffinity podAntiAffinity preferred required,
    foo ci ingressConfig infraConfig deployment
    = (Returned true, deployment') /\
    appsv1.affinity deployment' = Some affinity /\
    corev1.Affinity_NodeAffinity affinity = None /\
    corev1.Affinity_PodAffinity affinity = Some podAffinity /\
    corev1.PodAffinity_PreferredDuringSchedulingIgnoredDuringExecution
      podAffinity = [preferred] /\
    corev1.PodAffinity_RequiredDuringSchedulingIgnoredDuringExecution
      podAffinity = [] /\
    corev1.WeightedPodAffinityTerm_Weight preferred = 100 /\
    corev1.PodAffinityTerm_TopologyKey
      (corev1.WeightedPodAffinityTerm_PodAffinityTerm preferred)
    = "kubernetes.io/hostname" /\
    carries (generationHashRequirement metav1.LabelSelectorOpNotIn)
      (corev1.WeightedPodAffinityTerm_PodAffinityTerm preferred) /\
    corev1.Affinity_PodAntiAffinity affinity = Some podAntiAffinity /\
    corev1.PodAntiAffinity_RequiredDuringSchedulingIgnoredDuringExecution
      podAntiAffinity = [required] /\
    corev1.PodAntiAffinity_PreferredDuringSchedulingIgnoredDuringExecution
      podAntiAffinity = [] /\
    corev1.PodAffinityTerm_TopologyKey required = "kubernetes.io/hostname" /\
    carries (generationHashRequirement metav1.LabelSelectorOpIn) required.
Proof.
  intros Hsingle Htype Hfamily.
  destruct (surgeFamily_dispatch _ Hfamily) as [Hnothost Hcase].
  run_surge_family Hsingle Htype Hnothost Hcase.
  eexists _, _, _, _, _, _.
  split; [reflexivity |]. split; [reflexivity |]. split; [reflexivity |].
  split; [reflexivity |]. split; [reflexivity |]. split; [reflexivity |].
  split; [reflexivity |]. split; [reflexivity |].
  split.
  { eexists _, _. split; [reflexivity |]. split.
    - apply list_elem_of_further, list_elem_of_here.
    - repeat split. }
  split; [reflexivity |]. split; [reflexivity |]. split; [reflexivity |].
  split; [reflexivity |].
  eexists _, _. split; [reflexivity |]. split.
  - apply list_elem_of_further, list_elem_of_here.
  - repeat split.
Qed.

(** [foo] answers [true] only from the branch of the surge family. *)
Lemma foo_true_inv ci ingressConfig infraConfig deployment deployment' :
  foo ci ingressConfig infraConfig deployment = (Returned true, deployment') ->
  singleReplica ingressConfig infraConfig = false /\
  exists type,
    endpointPublishingStrategyType ci = Some type /\ surgeFamily type.
Proof.
  unfold foo, mbind, mret, Exec_bind, Exec_ret, assign, deref,
    endpointPublishingStrategyType.
  destruct (singleReplica ingressConfig infraConfig); [discriminate |].
  destruct (operatorv1.IngressControllerStatus_EndpointPublishingStrategy _)
    as [eps|]; [| discriminate].
  destruct (_ =? operatorv1.HostNetworkStrategyType); [discriminate |].
  destruct (_ || _) eqn:Hcase; [| discriminate].
  intros _. split; [reflexivity |].
  eexists. split; [reflexivity |]. now apply dispatch_surgeFamily.
Qed.

(** C10. Whenever [foo] attaches the affinity policy (returns [true]), the
    single preferred pod-affinity term and the single required
    pod-anti-affinity term each carry a requirement with key the
    controller-deployment label, operator In and exactly one value, the
    deployment label of this ingress controller. *)
Theorem affinity_terms_name_own_deployment
    ci ingressConfig infraConfig deployment deployment' :
  foo ci ingressConfig infraConfig deployment = (Returned true, deployment') ->
  exists affinity podAffinity podAntiAffinity preferred required,
    appsv1.affinity deployment' = Some affinity /\
    corev1.Affinity_PodAffinity affinity = Some podAffinity /\
    corev1.PodAffinity_PreferredDuringSchedulingIgnoredDuringExecution
      podAffinity = [preferred] /\
    carries (ownDeploymentRequirement ci)
      (corev1.WeightedPodAffinityTerm_PodAffinityTerm preferred) /\
    corev1.Affinity_PodAntiAffinity affinity = Some podAntiAffinity /\
    corev1.PodAntiAffinity_RequiredDuringSchedulingIgnoredDuringExecution
      podAntiAffinity = [required] /\
    carries (ownDeploymentRequirement ci) required.
Proof.
  intros Hfoo.
  destruct (foo_true_inv _ _ _ _ _ Hfoo)
    as (Hsingle & type & Htype & Hfamily).
  destruct (surgeFamily_dispatch _ Hfamily) as [Hnothost Hcase].
  revert Hfoo. run_surge_family Hsingle Htype Hnothost Hcase.
  intros [= <-].
  eexists _, _, _, _, _.
  split; [reflexivity |]. split; [reflexivity |]. split; [reflexivity |].
  split.
  { eexists _, _. split; [reflexivity |]. split.
    - apply list_elem_of_here.
    - repeat split. }
  split; [reflexivity |]. split; [reflexivity |].
  eexists _, _. split; [reflexivity |]. split.
  - apply list_elem_of_here.
  - repeat split.
Qed.

(** HostNetwork is not in the surge family. *)
Lemma surgeFamily_not_HostNetwork :
  ~ surgeFamily operatorv1.HostNetworkStrategyType.
Proof. intros [H | [H | H]]; discriminate H. Qed.

(** A call that answered [false] and left neither an affinity nor a
    nonzero surge satisfies the invariant when the input is outside the
    surge family or single-replica. *)
Lemma affinityFollowsSurge_false ci ingressConfig infraConfig deployment' :
  appsv1.affinity deployment' = None ->
  ~ surgeNonzero deployment' ->
  ~ (singleReplica ingressConfig infraConfig = false /\
     exists type,
       endpointPublishingStrategyType ci = Some type /\ surgeFamily type) ->
  affinityFollowsSurge ci ingressConfig infraConfig false deployment'.
Proof.
  intros Haffinity Hsurge Hother. unfold affinityFollowsSurge.
  rewrite Haffinity.
  split; [split; [intros [? [=]] | discriminate] |].
  split; [split; [discriminate | intros [_ H]; now destruct Hsurge] |].
  split; [split; [intros [_ H]; now destruct Hsurge
                 | intros H; now destruct Hother] |].
  split; [intros _; reflexivity |].
  split; [intros _; reflexivity | intros H; now destruct Hsurge].
Qed.

Lemma affinityFollowsSurge_true
    ci ingressConfig infraConfig deployment' type :
  is_Some (appsv1.affinity deployment') ->
  rollingWithSurge deployment' ->
  singleReplica ingressConfig infraConfig = false ->
  endpointPublishingStrategyType ci = Some type ->
  surgeFamily type ->
  affinityFollowsSurge ci ingressConfig infraConfig true deployment'.
Proof.
  intros Haffinity Hrolling Hsingle Htype Hfamily.
  unfold affinityFollowsSurge. rewrite Hsingle, Htype.
  split; [tauto |]. split; [tauto |].
  split; [split; [intros _; split; [reflexivity | eauto]
                 | intros _; exact Hrolling] |].
  split; [| split; [discriminate | intros _; exact Haffinity]].
  intros [= ->]. now destruct surgeFamily_not_HostNetwork.
Qed.

Lemma surgeNonzero_unset deployment :
  maxSurge deployment = None -> ~ surgeNonzero deployment.
Proof. intros Hunset (surge & Hset & _). congruence. Qed.

Lemma maxSurge_set_Replicas r deployment :
  maxSurge (appsv1.Deployment_set_Replicas r deployment)
  = maxSurge deployment.
Proof. reflexivity. Qed.

(** C3, as the code has it. For a deployment supplied without an affinity
    and without rolling-update parameters, on well-formed inputs, [foo]
    returns and: the affinity is present exactly when the flag is [true],
    exactly when the strategy is the rolling one with a nonzero surge,
    exactly when the type is Private, LoadBalancerService or NodePortService
    and the topology is not single-replica; the affinity is absent for
    HostNetwork and under single-replica topology; a nonzero surge comes
    with the affinity. A HostNetwork controller never has a nonzero surge:
    its surge is the absolute value 0 when the topology is not
    single-replica, and is left unset when it is. *)
Theorem affinity_follows_surge ci ingressConfig infraConfig deployment :
  appsv1.affinity deployment = None ->
  appsv1.DeploymentStrategy_RollingUpdate (appsv1.strategy deployment)
  = None ->
  singleReplica ingressConfig infraConfig = true \/
  is_Some (endpointPublishingStrategyType ci) ->
  exists configureAffinity deployment',
    foo ci ingressConfig infraConfig deployment
    = (Returned configureAffinity, deployment') /\
    affinityFollowsSurge
      ci ingressConfig infraConfig configureAffinity deployment' /\
    (endpointPublishingStrategyType ci
     = Some operatorv1.HostNetworkStrategyType ->
     ~ surgeNonzero deployment' /\
     (singleReplica ingressConfig infraConfig = false ->
      maxSurge deployment' = Some (intstr.FromInt 0)) /\
     (singleReplica ingressConfig infraConfig = true ->
      maxSurge deployment' = None)).
Proof.
  intros Haffinity Hrolling Hwf.
  assert (Hunset : maxSurge deployment = None)
    by (unfold maxSurge; now rewrite Hrolling).
  destruct (singleReplica ingressConfig infraConfig) eqn:Hsingle.
  { (* single replica: nothing but the replica count is written *)
    eexists _, _. split; [now apply foo_singleReplica |].
    split.
    - apply affinityFollowsSurge_false.
      + now rewrite affinity_set_Replicas.
      + apply surgeNonzero_unset. now rewrite maxSurge_set_Replicas.
      + rewrite Hsingle. now intros [[=] _].
    - intros _. split; [| split].
      + apply surgeNonzero_unset. now rewrite maxSurge_set_Replicas.
      + discriminate.
      + intros _. now rewrite maxSurge_set_Replicas. }
  destruct Hwf as [[=] | [type Htype]].
  destruct (decide (type = operatorv1.HostNetworkStrategyType)) as [-> | Hhost].
  { (* HostNetwork: surge 0, affinity untouched *)
    pose proof Htype as Htype'. reveal_strategy Htype'.
    eexists _, _. split.
    { unfold_exec. rewrite Hsingle, Hptr, Htype'. reflexivity. }
    assert (Hzero : forall d,
      ~ surgeNonzero (appsv1.Deployment_set_Strategy
        {| appsv1.DeploymentStrategy_Type :=
             appsv1.RollingUpdateDeploymentStrategyType;
           appsv1.DeploymentStrategy_RollingUpdate := Some
             {| appsv1.RollingUpdateDeployment_MaxUnavailable :=
                  Some (intstr.FromString "25%");
                appsv1.RollingUpdateDeployment_MaxSurge :=
                  Some (intstr.FromInt 0) |} |} d)).
    { intros d (surge & [= <-] & Hne). now apply Hne. }
    split.
    - apply affinityFollowsSurge_false.
      + exact Haffinity.
      + apply Hzero.
      + rewrite Htype. intros [_ (type & [= <-] & Hfamily)].
        now apply surgeFamily_not_HostNetwork.
    - intros _. split; [apply Hzero | split; [reflexivity | discriminate]]. }
  destruct (decide (surgeFamily type)) as [Hfamily | Hother].
  { (* surge family: strategy with surge, and the affinity *)
    pose proof Htype as Htype'.
    destruct (surgeFamily_dispatch _ Hfamily) as [Hnothost Hcase].
    run_surge_family Hsingle Htype' Hnothost Hcase.
    eexists _, _. split; [reflexivity |]. split.
    - eapply affinityFollowsSurge_true; eauto.
      split; [reflexivity |].
      eexists. split; [reflexivity | discriminate].
    - rewrite Htype. intros [= Heq]. now destruct Hhost. }
  (* any other type: nothing but the replica count is written *)
  eexists _, _. split.
  { apply (foo_other_type _ _ _ _ type); try assumption;
      intros ->; apply Hother; unfold surgeFamily; tauto. }
  split.
  - apply affinityFollowsSurge_false.
    + now rewrite affinity_set_Replicas.
    + apply surgeNonzero_unset. now rewrite maxSurge_set_Replicas.
    + rewrite Htype. intros [_ (type' & [= <-] & Hfamily)]. now apply Hother.
  - rewrite Htype. intros [= Heq]. now destruct Hhost.
Qed.

(** *** Beyond the invariants above: frame, repetition, faults *)

(** X1. [foo] writes the replica count, the update strategy and the affinity
    and nothing else: the name, the labels, the selector, the readiness
    delay and the rest of the pod template are those supplied, on every
    path, a panic included. *)
Theorem foo_keeps_other_fields ci ingressConfig infraConfig deployment :
  otherFields (foo ci ingressConfig infraConfig deployment).2
  = otherFields deployment.
Proof. foo_paths ci ingressConfig infraConfig; reflexivity. Qed.

(** X2. Calling [foo] again with the same configuration on the deployment
    it left gives the same outcome and the same deployment. *)
Theorem foo_idempotent ci ingressConfig infraConfig deployment :
  foo ci ingressConfig infraConfig
    (foo ci ingressConfig infraConfig deployment).2
  = foo ci ingressConfig infraConfig deployment.
Proof. foo_paths ci ingressConfig infraConfig; reflexivity. Qed.

(** X3. [foo] never reads the deployment: run on two deployments it ends in
    the same outcome with the same replica count, and the update strategy
    (respectively the affinity) is either the same in both results or, in
    both, the one supplied. *)
Theorem foo_reads_nothing
    ci ingressConfig infraConfig deployment1 deployment2 :
  (foo ci ingressConfig infraConfig deployment1).1
  = (foo ci ingressConfig infraConfig deployment2).1 /\
  appsv1.replicas (foo ci ingressConfig infraConfig deployment1).2
  = appsv1.replicas (foo ci ingressConfig infraConfig deployment2).2 /\
  (appsv1.strategy (foo ci ingressConfig infraConfig deployment1).2
   = appsv1.strategy (foo ci ingressConfig infraConfig deployment2).2 \/
   appsv1.strategy (foo ci ingressConfig infraConfig deployment1).2
   = appsv1.strategy deployment1 /\
   appsv1.strategy (foo ci ingressConfig infraConfig deployment2).2
   = appsv1.strategy deployment2) /\
  (appsv1.affinity (foo ci ingressConfig infraConfig deployment1).2
   = appsv1.affinity (foo ci ingressConfig infraConfig deployment2).2 \/
   appsv1.affinity (foo ci ingressConfig infraConfig deployment1).2
   = appsv1.affinity deployment1 /\
   appsv1.affinity (foo ci ingressConfig infraConfig deployment2).2
   = appsv1.affinity deployment2).
Proof.
  foo_paths ci ingressConfig infraConfig;
    (split; [reflexivity |]); (split; [reflexivity |]);
    split; solve [left; reflexivity | right; split; reflexivity].
Qed.

(** X4. [foo] panics exactly when the topology is not single-replica and
    the status has no endpoint publishing strategy; the deployment then has
    the replica count written and nothing else changed. *)
Theorem foo_panics_iff ci ingressConfig infraConfig deployment :
  ((foo ci ingressConfig infraConfig deployment).1 = Panicked <->
   singleReplica ingressConfig infraConfig = false /\
   endpointPublishingStrategyType ci = None) /\
  ((foo ci ingressConfig infraConfig deployment).1 = Panicked ->
   (foo ci ingressConfig infraConfig deployment).2
   = appsv1.Deployment_set_Replicas
       (Some (determineDeploymentReplicas ci ingressConfig infraConfig))
       deployment).
Proof.
  unfold endpointPublishingStrategyType.
  foo_paths ci ingressConfig infraConfig; simpl;
    (split; [split; [try discriminate | intros [? ?]; try discriminate]
            | try discriminate]);
    try reflexivity; try (split; reflexivity).
Qed.

(** X5. For any deployment supplied, [foo] returns [true] exactly when the
    topology is not single-replica and the strategy type is Private,
    LoadBalancerService or NodePortService. *)
Theorem foo_true_iff ci ingressConfig infraConfig deployment :
  (foo ci ingressConfig infraConfig deployment).1 = Returned true <->
  singleReplica ingressConfig infraConfig = false /\
  exists type,
    endpointPublishingStrategyType ci = Some type /\ surgeFamily type.
Proof.
  split.
  - intros Htrue. apply (foo_true_inv _ _ _ deployment
      (foo ci ingressConfig infraConfig deployment).2).
    destruct (foo ci ingressConfig infraConfig deployment) as [result after].
    simpl in Htrue. now subst result.
  - intros (Hsingle & type & Htype & Hfamily).
    destruct (surgeFamily_dispatch _ Hfamily) as [Hnothost Hcase].
    run_surge_family Hsingle Htype Hnothost Hcase. reflexivity.
Qed.

(** X6. [foo] never clears an affinity: unless it returns [true], the
    affinity of the deployment is exactly the one supplied, so an affinity
    that was there stays there while the flag says none was configured. *)
Theorem foo_keeps_supplied_affinity ci ingressConfig infraConfig deployment :
  (foo ci ingressConfig infraConfig deployment).1 <> Returned true ->
  appsv1.affinity (foo ci ingressConfig infraConfig deployment).2
  = appsv1.affinity deployment.
Proof.
  foo_paths ci ingressConfig infraConfig; simpl; intros Hflag;
    try reflexivity.
  now destruct Hflag.
Qed.

(** X7. A call in the surge-family case overwrites whatever an earlier call
    wrote, with any controller and configuration: the result is the one of
    the later call alone. *)
Theorem surge_family_call_overwrites
    ci1 ingressConfig1 infraConfig1 ci2 ingressConfig2 infraConfig2
    deployment type :
  singleReplica ingressConfig2 infraConfig2 = false ->
  endpointPublishingStrategyType ci2 = Some type ->
  surgeFamily type ->
  foo ci2 ingressConfig2 infraConfig2
    (foo ci1 ingressConfig1 infraConfig1 deployment).2
  = foo ci2 ingressConfig2 infraConfig2 deployment.
Proof.
  intros Hsingle Htype Hfamily.
  destruct (surgeFamily_dispatch _ Hfamily) as [Hnothost Hcase].
  run_surge_family Hsingle Htype Hnothost Hcase.
  clear Hnothost Hcase.
  destruct (singleReplica ingressConfig1 infraConfig1); [reflexivity |].
  destruct (operatorv1.IngressControllerStatus_EndpointPublishingStrategy
              (operatorv1.IngressController_Status ci1)) as [eps1|];
    [| reflexivity].
  destruct (operatorv1.EndpointPublishingStrategy_Type eps1
            =? operatorv1.HostNetworkStrategyType); [reflexivity |].
  destruct (_ || _); reflexivity.
Qed.

(** X8. Whatever the inputs, the update strategy after [foo] is either the
    one supplied or a rolling update whose [MaxUnavailable] is the
    percentage 25% or 50% and whose [MaxSurge] is the absolute value 0 or
    the percentage 25%: [foo] never writes another strategy type, a nil
    parameter or a zero [MaxUnavailable]. *)
Theorem foo_strategy_shape ci ingressConfig infraConfig deployment :
  appsv1.strategy (foo ci ingressConfig infraConfig deployment).2
  = appsv1.strategy deployment \/
  appsv1.DeploymentStrategy_Type
    (appsv1.strategy (foo ci ingressConfig infraConfig deployment).2)
  = appsv1.RollingUpdateDeploymentStrategyType /\
  (maxUnavailable (foo ci ingressConfig infraConfig deployment).2
   = Some (intstr.FromString "25%") \/
   maxUnavailable (foo ci ingressConfig infraConfig deployment).2
   = Some (intstr.FromString "50%")) /\
  (maxSurge (foo ci ingressConfig infraConfig deployment).2
   = Some (intstr.FromInt 0) \/
   maxSurge (foo ci ingressConfig infraConfig deployment).2
   = Some (intstr.FromString "25%")).
Proof.
  foo_paths ci ingressConfig infraConfig;
    try (left; reflexivity); right.
  - split; [reflexivity |]. split; left; reflexivity.
  - split; [reflexivity |]. split; [| right; reflexivity].
    unfold maxUnavailable; simpl.
    destruct (_ >=? 4); [left | right]; reflexivity.
Qed.

(** X9. A declared replica count is the one written to the deployment and
    the one the threshold of the surge family is applied to, whatever the
    default replica policy would say: [MaxUnavailable] is 25% exactly from 4
    declared replicas on, and 50% exactly below. *)
Theorem declared_replicas_drive_threshold
    ci ingressConfig infraConfig deployment type replicas :
  operatorv1.IngressControllerSpec_Replicas
    (operatorv1.IngressController_Spec ci) = Some replicas ->
  singleReplica ingressConfig infraConfig = false ->
  endpointPublishingStrategyType ci = Some type ->
  surgeFamily type ->
  appsv1.replicas (foo ci ingressConfig infraConfig deployment).2
  = Some replicas /\
  (maxUnavailable (foo ci ingressConfig infraConfig deployment).2
   = Some (intstr.FromString "25%") <-> 4 <= replicas) /\
  (maxUnavailable (foo ci ingressConfig infraConfig deployment).2
   = Some (intstr.FromString "50%") <-> replicas < 4).
Proof.
  intros Hdeclared Hsingle Htype Hfamily.
  assert (Hresolved :
    determineDeploymentReplicas ci ingressConfig infraConfig = replicas)
    by (unfold determineDeploymentReplicas; now rewrite Hdeclared).
  split; [now rewrite replicas_after_foo, Hresolved |].
  destruct (surgeFamily_dispatch _ Hfamily) as [Hnothost Hcase].
  run_surge_family Hsingle Htype Hnothost Hcase.
  unfold maxUnavailable; simpl.
  destruct (_ >=? 4) eqn:Hge.
  - apply Z.geb_le in Hge.
    split; split; try (intros _; lia); try discriminate; try reflexivity.
    intros; lia.
  - rewrite Z.geb_leb in Hge. apply Z.leb_gt in Hge.
    split; split; try (intros _; lia); try discriminate; try reflexivity.
    intros; lia.
Qed.

(** X10. When a controller of the surge family becomes a HostNetwork one and
    [foo] runs again on the same deployment, the call returns [false] and
    sets the surge to 0, but the affinity written by the earlier call is
    still in the deployment. *)
Theorem host_network_after_surge_family
    ci1 ci2 ingressConfig infraConfig deployment type :
  singleReplica ingressConfig infraConfig = false ->
  endpointPublishingStrategyType ci1 = Some type ->
  surgeFamily type ->
  endpointPublishingStrategyType ci2
  = Some operatorv1.HostNetworkStrategyType ->
  exists deployment1 deployment2,
    foo ci1 ingressConfig infraConfig deployment
    = (Returned true, deployment1) /\
    foo ci2 ingressConfig infraConfig deployment1
    = (Returned false, deployment2) /\
    is_Some (appsv1.affinity deployment2) /\
    appsv1.affinity deployment2 = appsv1.affinity deployment1 /\
    maxSurge deployment2 = Some (intstr.FromInt 0).
Proof.
  intros Hsingle Htype1 Hfamily Htype2.
  destruct (surgeFamily_dispatch _ Hfamily) as [Hnothost Hcase].
  reveal_strategy Htype2.
  run_surge_family Hsingle Htype1 Hnothost Hcase.
  rewrite Hptr, Htype2. simpl.
  eexists _, _. split; [reflexivity |]. split; [reflexivity |].
  split; [eexists; reflexivity |]. split; reflexivity.
Qed.

(** X11. [singleReplica] looks at one topology field only: under
    control-plane placement two infrastructures with the same control-plane
    topology get the same answer whatever their infrastructure topology, and
    under any other placement (an unknown or empty one included) two
    infrastructures with the same infrastructure topology do. *)
Theorem singleReplica_reads_one_field
    ingressConfig infraConfig1 infraConfig2 :
  (configv1.IngressStatus_DefaultPlacement
     (configv1.Ingress_Status ingressConfig)
   = configv1.DefaultPlacementControlPlane ->
   configv1.InfrastructureStatus_ControlPlaneTopology
     (configv1.Infrastructure_Status infraConfig1)
   = configv1.InfrastructureStatus_ControlPlaneTopology
       (configv1.Infrastructure_Status infraConfig2) ->
   singleReplica ingressConfig infraConfig1
   = singleReplica ingressConfig infraConfig2) /\
  (configv1.IngressStatus_DefaultPlacement
     (configv1.Ingress_Status ingressConfig)
   <> configv1.DefaultPlacementControlPlane ->
   configv1.InfrastructureStatus_InfrastructureTopology
     (configv1.Infrastructure_Status infraConfig1)
   = configv1.InfrastructureStatus_InfrastructureTopology
       (configv1.Infrastructure_Status infraConfig2) ->
   singleReplica ingressConfig infraConfig1
   = singleReplica ingressConfig infraConfig2).
Proof.
  unfold singleReplica. split.
  - intros -> Hsame. rewrite String.eqb_refl. now rewrite Hsame.
  - intros Hother%String.eqb_neq Hsame. rewrite Hother. now rewrite Hsame.
Qed.

(** X12. [foo] does not tell Private, LoadBalancerService and
    NodePortService apart: two controllers of the surge family with the same
    declared replica count and the same deployment label leave the same
    deployment, so moving a controller from one of these types to another
    changes nothing in it. *)
Theorem surge_family_types_alike
    ci1 ci2 ingressConfig infraConfig deployment type1 type2 :
  operatorv1.IngressControllerSpec_Replicas
    (operatorv1.IngressController_Spec ci1)
  = operatorv1.IngressControllerSpec_Replicas
      (operatorv1.IngressController_Spec ci2) ->
  IngressControllerDeploymentLabel ci1
  = IngressControllerDeploymentLabel ci2 ->
  singleReplica ingressConfig infraConfig = false ->
  endpointPublishingStrategyType ci1 = Some type1 ->
  surgeFamily type1 ->
  endpointPublishingStrategyType ci2 = Some type2 ->
  surgeFamily type2 ->
  foo ci1 ingressConfig infraConfig deployment
  = foo ci2 ingressConfig infraConfig deployment.
Proof.
  intros Hreplicas Hlabel Hsingle Htype1 Hfamily1 Htype2 Hfamily2.
  destruct (surgeFamily_dispatch _ Hfamily1) as [Hnothost1 Hcase1].
  destruct (surgeFamily_dispatch _ Hfamily2) as [Hnothost2 Hcase2].
  unfold endpointPublishingStrategyType in Htype1, Htype2.
  destruct (operatorv1.IngressControllerStatus_EndpointPublishingStrategy
              (operatorv1.IngressController_Status ci1))
    as [eps1|] eqn:Hptr1; [| discriminate Htype1].
  destruct (operatorv1.IngressControllerStatus_EndpointPublishingStrategy
              (operatorv1.IngressController_Status ci2))
    as [eps2|] eqn:Hptr2; [| discriminate Htype2].
  injection Htype1 as <-. injection Htype2 as <-.
  unfold_exec. unfold determineDeploymentReplicas.
  rewrite Hsingle, Hptr1, Hptr2, Hnothost1, Hcase1, Hnothost2, Hcase2.
  now rewrite Hreplicas, Hlabel.
Qed.

End Policy.

(** ** The replica count *)

(** C7. An explicit replica count is the resolved replica count, unchanged,
    for any strategy type and topology and whatever the default replica
    policy is (it is not consulted), and it is the count [foo] writes to the
    deployment; without an explicit count the resolved count is the one the
    default replica policy gives for the same configuration objects. *)
Theorem explicit_replica_count_wins
    (DetermineReplicas : configv1.Ingress -> configv1.Infrastructure -> Z)
    ic ingressConfig infraConfig :
  (forall replicas,
     operatorv1.IngressControllerSpec_Replicas
       (operatorv1.IngressController_Spec ic) = Some replicas ->
     forall DetermineReplicas',
       determineDeploymentReplicas
         DetermineReplicas' ic ingressConfig infraConfig = replicas /\
       forall ControllerDeploymentLabel ControllerDeploymentHashLabel
              IngressControllerDeploymentLabel deployment,
         appsv1.replicas
           (foo ControllerDeploymentLabel ControllerDeploymentHashLabel
              IngressControllerDeploymentLabel DetermineReplicas'
              ic ingressConfig infraConfig deployment).2
         = Some replicas) /\
  (operatorv1.IngressControllerSpec_Replicas
     (operatorv1.IngressController_Spec ic) = None ->
   determineDeploymentReplicas DetermineReplicas ic ingressConfig infraConfig
   = DetermineReplicas ingressConfig infraConfig).
Proof.
  split.
  - intros replicas Hexplicit DetermineReplicas'.
    assert (Hresolved :
      determineDeploymentReplicas
        DetermineReplicas' ic ingressConfig infraConfig = replicas)
      by (unfold determineDeploymentReplicas; now rewrite Hexplicit).
    split; [exact Hresolved |].
    intros. rewrite replicas_after_foo. now rewrite Hresolved.
  - intros Habsent. unfold determineDeploymentReplicas. now rewrite Habsent.
Qed.

(** ** What the controller-deployment requirement buys *)

Lemma Matches_In_singleton requirement ls key value :
  metav1.LabelSelectorRequirement_Key requirement = key ->
  metav1.LabelSelectorRequirement_Operator requirement
  = metav1.LabelSelectorOpIn ->
  metav1.LabelSelectorRequirement_Values requirement = Some [value] ->
  labels.Matches requirement ls = true ->
  ls !! key = Some value.
Proof.
  intros <- Hoperator Hvalues. unfold labels.Matches, labels.hasValue.
  rewrite Hoperator, Hvalues. simpl.
  destruct (ls !! _) as [found|]; [| discriminate].
  intros Hin%bool_decide_eq_true_1. apply list_elem_of_singleton in Hin.
  now subst.
Qed.

(** A pod matched by a term that carries the controller-deployment
    requirement of [ci] bears the deployment label of [ci], whatever else the
    selector of the term asks for, in particular whatever values the caller
    later gives to the generation-hash requirement. *)
Lemma carried_requirement_confines_matches
    ControllerDeploymentLabel IngressControllerDeploymentLabel
    ci selector requirement ls :
  requirement ∈ metav1.LabelSelector_MatchExpressions selector ->
  ownDeploymentRequirement
    ControllerDeploymentLabel IngressControllerDeploymentLabel
    ci requirement ->
  labels.selectorMatches selector ls = true ->
  ls !! ControllerDeploymentLabel = Some (IngressControllerDeploymentLabel ci).
Proof.
  intros Hlisted (Hkey & Hoperator & Hvalues) Hmatches.
  unfold labels.selectorMatches in Hmatches.
  apply andb_true_iff in Hmatches as [_ Hall].
  rewrite forallb_forall in Hall.
  apply (Matches_In_singleton requirement); try assumption.
  apply Hall. now apply list_elem_of_In.
Qed.

(** ** The theorems at concrete inputs *)

Local Abbreviation run :=
  (foo exampleDeploymentLabel exampleHashLabel exampleDeploymentLabelOf
     exampleDetermineReplicas).

Local Abbreviation highlyAvailable :=
  (exampleInfrastructure
     configv1.HighlyAvailableTopologyMode configv1.HighlyAvailableTopologyMode).

Local Abbreviation workers := (exampleIngress configv1.DefaultPlacementWorkers).

(** Three replicas behind a load balancer: 50% may be unavailable. *)
Lemma surge_family_update_strategy_witness :
  exists configureAffinity deployment',
    run (exampleController
           (Some 3) (Some operatorv1.LoadBalancerServiceStrategyType))
        workers highlyAvailable zeroDeployment
    = (Returned configureAffinity, deployment') /\
    maxSurge deployment' = Some (intstr.FromString "25%") /\
    maxUnavailable deployment' = Some (intstr.FromString "50%").
Proof.
  destruct (surge_family_update_strategy
              exampleDeploymentLabel exampleHashLabel exampleDeploymentLabelOf
              exampleDetermineReplicas
              (exampleController
                 (Some 3) (Some operatorv1.LoadBalancerServiceStrategyType))
              workers highlyAvailable zeroDeployment
              operatorv1.LoadBalancerServiceStrategyType
              eq_refl eq_refl (or_intror (or_introl eq_refl)))
    as (configureAffinity & deployment' & Hfoo & _ & Hsurge & Hbelow & _).
  exists configureAffinity, deployment'.
  split; [exact Hfoo |]. split; [exact Hsurge |].
  apply Hbelow. reflexivity.
Defined.

Lemma surge_family_affinity_witness :
  exists deployment',
    run (exampleController None (Some operatorv1.PrivateStrategyType))
        workers highlyAvailable zeroDeployment
    = (Returned true, deployment') /\
    is_Some (appsv1.affinity deployment').
Proof.
  destruct (surge_family_affinity
              exampleDeploymentLabel exampleHashLabel exampleDeploymentLabelOf
              exampleDetermineReplicas
              (exampleController None (Some operatorv1.PrivateStrategyType))
              workers highlyAvailable zeroDeployment
              operatorv1.PrivateStrategyType
              eq_refl eq_refl (or_introl eq_refl))
    as (deployment' & affinity & _ & _ & _ & _ & Hfoo & Haffinity & _).
  exists deployment'. split; [exact Hfoo |]. now exists affinity.
Defined.

(** HostNetwork on a single-replica cluster, fresh deployment: the call
    returns at the topology test, before the HostNetwork case could set the
    surge to 0, and [MaxSurge] stays unset. *)
Lemma host_network_single_replica_surge_unset :
  ~ affinityFollowsSurge_HostNetworkAlwaysZero
      exampleDeploymentLabel exampleHashLabel exampleDeploymentLabelOf
      exampleDetermineReplicas
      (exampleController None (Some operatorv1.HostNetworkStrategyType))
      workers
      (exampleInfrastructure
         configv1.SingleReplicaTopologyMode configv1.SingleReplicaTopologyMode)
      zeroDeployment.
Proof.
  intros (configureAffinity & deployment' & Hfoo & _ & Hzero).
  specialize (Hzero eq_refl).
  vm_compute in Hfoo. injection Hfoo as _ <-.
  discriminate Hzero.
Qed.

Lemma affinity_follows_surge_witness :
  exists configureAffinity deployment',
    run (exampleController None (Some operatorv1.HostNetworkStrategyType))
        workers
        (exampleInfrastructure
           configv1.SingleReplicaTopologyMode
           configv1.SingleReplicaTopologyMode)
        zeroDeployment
    = (Returned configureAffinity, deployment') /\
    maxSurge deployment' = None /\
    appsv1.affinity deployment' = None.
Proof.
  destruct (affinity_follows_surge
              exampleDeploymentLabel exampleHashLabel exampleDeploymentLabelOf
              exampleDetermineReplicas
              (exampleController None (Some operatorv1.HostNetworkStrategyType))
              workers
              (exampleInfrastructure
                 configv1.SingleReplicaTopologyMode
                 configv1.SingleReplicaTopologyMode)
              zeroDeployment eq_refl eq_refl (or_introl eq_refl))
    as (configureAffinity & deployment' & Hfoo & Hfollows & Hhost).
  exists configureAffinity, deployment'. split; [exact Hfoo |]. split.
  - now apply Hhost.
  - destruct Hfollows as (_ & _ & _ & Habsent & _). now apply Habsent.
Defined.

(** [foo] clears nothing: an affinity supplied by the caller is still there
    after a call that answers [false]. *)
Lemma supplied_affinity_survives_single_replica :
  exists deployment',
    run (exampleController None (Some operatorv1.HostNetworkStrategyType))
        workers
        (exampleInfrastructure
           configv1.SingleReplicaTopologyMode
           configv1.SingleReplicaTopologyMode)
        examplePopulatedDeployment
    = (Returned false, deployment') /\
    is_Some (appsv1.affinity deployment').
Proof. eexists. split; [reflexivity | vm_compute; eauto]. Qed.

Lemma single_replica_no_override_witness :
  exists deployment',
    run (exampleController None (Some operatorv1.PrivateStrategyType))
        (exampleIngress configv1.DefaultPlacementControlPlane)
        (exampleInfrastructure
           configv1.SingleReplicaTopologyMode
           configv1.HighlyAvailableTopologyMode)
        examplePopulatedDeployment
    = (Returned false, deployment') /\
    appsv1.strategy deployment' = appsv1.strategy examplePopulatedDeployment /\
    appsv1.affinity deployment' = appsv1.affinity examplePopulatedDeployment.
Proof.
  apply (single_replica_no_override
           exampleDeploymentLabel exampleHashLabel exampleDeploymentLabelOf
           exampleDetermineReplicas).
  reflexivity.
Defined.

Lemma host_network_update_strategy_witness :
  exists deployment',
    run (exampleController
           (Some 5) (Some operatorv1.HostNetworkStrategyType))
        workers highlyAvailable zeroDeployment
    = (Returned false, deployment') /\
    maxSurge deployment' = Some (intstr.FromInt 0) /\
    appsv1.affinity deployment' = None.
Proof.
  destruct (host_network_update_strategy
              exampleDeploymentLabel exampleHashLabel exampleDeploymentLabelOf
              exampleDetermineReplicas
              (exampleController
                 (Some 5) (Some operatorv1.HostNetworkStrategyType))
              workers highlyAvailable zeroDeployment eq_refl eq_refl)
    as (deployment' & Hfoo & _ & _ & Hsurge & Haffinity).
  exists deployment'. split; [exact Hfoo |]. split; assumption.
Defined.

(** Seven declared replicas on a single-replica cluster whose default
    policy would say two. *)
Lemma explicit_replica_count_wins_witness :
  determineDeploymentReplicas
    exampleDetermineReplicas
    (exampleController (Some 7) (Some operatorv1.HostNetworkStrategyType))
    workers
    (exampleInfrastructure
       configv1.SingleReplicaTopologyMode configv1.SingleReplicaTopologyMode)
  = 7 /\
  determineDeploymentReplicas
    exampleDetermineReplicas
    (exampleController None (Some operatorv1.HostNetworkStrategyType))
    workers highlyAvailable
  = exampleDetermineReplicas workers highlyAvailable.
Proof.
  split.
  - apply (explicit_replica_count_wins
             exampleDetermineReplicas
             (exampleController
                (Some 7) (Some operatorv1.HostNetworkStrategyType))
             workers
             (exampleInfrastructure
                configv1.SingleReplicaTopologyMode
                configv1.SingleReplicaTopologyMode)).
    reflexivity.
  - apply (explicit_replica_count_wins
             exampleDetermineReplicas
             (exampleController None (Some operatorv1.HostNetworkStrategyType))
             workers highlyAvailable).
    reflexivity.
Defined.

Lemma unrecognized_type_no_override_witness :
  exists deployment',
    run (exampleController None (Some "ExternalGateway"))
        workers highlyAvailable examplePopulatedDeployment
    = (Returned false, deployment') /\
    appsv1.strategy deployment' = appsv1.strategy examplePopulatedDeployment /\
    appsv1.affinity deployment' = appsv1.affinity examplePopulatedDeployment.
Proof.
  apply (unrecognized_type_no_override
           exampleDeploymentLabel exampleHashLabel exampleDeploymentLabelOf
           exampleDetermineReplicas
           (exampleController None (Some "ExternalGateway"))
           workers highlyAvailable examplePopulatedDeployment
           "ExternalGateway");
    [reflexivity | reflexivity | discriminate ..].
Defined.

Lemma foo_total_witness :
  exists configureAffinity deployment',
    run (exampleController None (Some operatorv1.NodePortServiceStrategyType))
        workers highlyAvailable zeroDeployment
    = (Returned configureAffinity, deployment').
Proof.
  apply (foo_total
           exampleDeploymentLabel exampleHashLabel exampleDeploymentLabelOf
           exampleDetermineReplicas).
  right. eexists. reflexivity.
Defined.

Lemma affinity_terms_name_own_deployment_witness :
  exists deployment' affinity podAntiAffinity required,
    run (exampleController None (Some operatorv1.NodePortServiceStrategyType))
        workers highlyAvailable zeroDeployment
    = (Returned true, deployment') /\
    appsv1.affinity deployment' = Some affinity /\
    corev1.Affinity_PodAntiAffinity affinity = Some podAntiAffinity /\
    corev1.PodAntiAffinity_RequiredDuringSchedulingIgnoredDuringExecution
      podAntiAffinity = [required] /\
    carries
      (ownDeploymentRequirement
         exampleDeploymentLabel exampleDeploymentLabelOf
         (exampleController
            None (Some operatorv1.NodePortServiceStrategyType)))
      required.
Proof.
  destruct (affinity_terms_name_own_deployment
              exampleDeploymentLabel exampleHashLabel exampleDeploymentLabelOf
              exampleDetermineReplicas
              (exampleController
                 None (Some operatorv1.NodePortServiceStrategyType))
              workers highlyAvailable zeroDeployment
              (run (exampleController
                      None (Some operatorv1.NodePortServiceStrategyType))
                   workers highlyAvailable zeroDeployment).2
              eq_refl)
    as (affinity & _ & podAntiAffinity & _ & required
        & Haffinity & _ & _ & _ & Hanti & Hrequired & Hcarries).
  exists (run (exampleController
                 None (Some operatorv1.NodePortServiceStrategyType))
              workers highlyAvailable zeroDeployment).2,
         affinity, podAntiAffinity, required.
  split; [reflexivity |]. split; [exact Haffinity |].
  split; [exact Hanti |]. split; [exact Hrequired | exact Hcarries].
Defined.

(** ** Frame, repetition and faults at concrete inputs *)

Local Abbreviation singleNode :=
  (exampleInfrastructure
     configv1.SingleReplicaTopologyMode configv1.SingleReplicaTopologyMode).

(** No strategy in the status of a controller on a highly available
    cluster: the call panics after writing the replica count. *)
Lemma foo_panics_iff_witness :
  run (exampleController (Some 3) None)
      workers highlyAvailable examplePopulatedDeployment
  = (Panicked,
     appsv1.Deployment_set_Replicas (Some 3) examplePopulatedDeployment).
Proof.
  destruct (foo_panics_iff
              exampleDeploymentLabel exampleHashLabel exampleDeploymentLabelOf
              exampleDetermineReplicas
              (exampleController (Some 3) None)
              workers highlyAvailable examplePopulatedDeployment)
    as [Hiff Hstate].
  assert (Hpanic :
    (run (exampleController (Some 3) None)
         workers highlyAvailable examplePopulatedDeployment).1 = Panicked)
    by (apply Hiff; split; reflexivity).
  specialize (Hstate Hpanic).
  destruct (run (exampleController (Some 3) None)
                workers highlyAvailable examplePopulatedDeployment)
    as [result after].
  simpl in Hpanic, Hstate. now subst.
Defined.

Lemma foo_true_iff_witness :
  (run (exampleController None (Some operatorv1.PrivateStrategyType))
       workers highlyAvailable zeroDeployment).1
  = Returned true.
Proof.
  apply (foo_true_iff
           exampleDeploymentLabel exampleHashLabel exampleDeploymentLabelOf
           exampleDetermineReplicas).
  split; [reflexivity |].
  exists operatorv1.PrivateStrategyType.
  split; [reflexivity | left; reflexivity].
Defined.

(** A HostNetwork controller and a deployment that carries an affinity:
    the flag is [false] and the affinity is still there. *)
Lemma foo_keeps_supplied_affinity_witness :
  appsv1.affinity
    (run (exampleController None (Some operatorv1.HostNetworkStrategyType))
         workers highlyAvailable examplePopulatedDeployment).2
  = appsv1.affinity examplePopulatedDeployment.
Proof.
  apply (foo_keeps_supplied_affinity
           exampleDeploymentLabel exampleHashLabel exampleDeploymentLabelOf
           exampleDetermineReplicas).
  discriminate.
Defined.

Lemma surge_family_call_overwrites_witness :
  run (exampleController (Some 4) (Some operatorv1.NodePortServiceStrategyType))
      workers highlyAvailable
      (run (exampleController
              (Some 2) (Some operatorv1.HostNetworkStrategyType))
           (exampleIngress configv1.DefaultPlacementControlPlane)
           highlyAvailable examplePopulatedDeployment).2
  = run (exampleController
           (Some 4) (Some operatorv1.NodePortServiceStrategyType))
        workers highlyAvailable examplePopulatedDeployment.
Proof.
  apply (surge_family_call_overwrites
           exampleDeploymentLabel exampleHashLabel exampleDeploymentLabelOf
           exampleDetermineReplicas
           _ _ _ _ _ _ _ operatorv1.NodePortServiceStrategyType);
    [reflexivity | reflexivity | right; right; reflexivity].
Defined.

(** Four declared replicas where the default policy says two. *)
Lemma declared_replicas_drive_threshold_witness :
  appsv1.replicas
    (run (exampleController
            (Some 4) (Some operatorv1.LoadBalancerServiceStrategyType))
         workers highlyAvailable zeroDeployment).2
  = Some 4 /\
  maxUnavailable
    (run (exampleController
            (Some 4) (Some operatorv1.LoadBalancerServiceStrategyType))
         workers highlyAvailable zeroDeployment).2
  = Some (intstr.FromString "25%").
Proof.
  destruct (declared_replicas_drive_threshold
              exampleDeploymentLabel exampleHashLabel exampleDeploymentLabelOf
              exampleDetermineReplicas
              (exampleController
                 (Some 4) (Some operatorv1.LoadBalancerServiceStrategyType))
              workers highlyAvailable zeroDeployment
              operatorv1.LoadBalancerServiceStrategyType 4
              eq_refl eq_refl eq_refl (or_intror (or_introl eq_refl)))
    as (Hwritten & Hfrom4 & _).
  split; [exact Hwritten |]. apply Hfrom4. discriminate.
Defined.

Lemma host_network_after_surge_family_witness :
  exists deployment1 deployment2,
    run (exampleController None (Some operatorv1.PrivateStrategyType))
        workers highlyAvailable zeroDeployment
    = (Returned true, deployment1) /\
    run (exampleController None (Some operatorv1.HostNetworkStrategyType))
        workers highlyAvailable deployment1
    = (Returned false, deployment2) /\
    is_Some (appsv1.affinity deployment2).
Proof.
  destruct (host_network_after_surge_family
              exampleDeploymentLabel exampleHashLabel exampleDeploymentLabelOf
              exampleDetermineReplicas
              (exampleController None (Some operatorv1.PrivateStrategyType))
              (exampleController
                 None (Some operatorv1.HostNetworkStrategyType))
              workers highlyAvailable zeroDeployment
              operatorv1.PrivateStrategyType
              eq_refl eq_refl (or_introl eq_refl) eq_refl)
    as (deployment1 & deployment2 & Hfirst & Hsecond & Hkept & _).
  exists deployment1, deployment2.
  split; [exact Hfirst |]. split; [exact Hsecond | exact Hkept].
Defined.

(** Workers placement: a single-replica control plane does not make the
    cluster single-replica for the ingress controller. *)
Lemma singleReplica_reads_one_field_witness :
  singleReplica workers
    (exampleInfrastructure
       configv1.SingleReplicaTopologyMode configv1.HighlyAvailableTopologyMode)
  = singleReplica workers highlyAvailable.
Proof.
  apply (singleReplica_reads_one_field
           workers
           (exampleInfrastructure
              configv1.SingleReplicaTopologyMode
              configv1.HighlyAvailableTopologyMode)
           highlyAvailable);
    [discriminate | reflexivity].
Defined.

Lemma surge_family_types_alike_witness :
  run (exampleController (Some 3) (Some operatorv1.PrivateStrategyType))
      workers highlyAvailable zeroDeployment
  = run (exampleController
           (Some 3) (Some operatorv1.NodePortServiceStrategyType))
        workers highlyAvailable zeroDeployment.
Proof.
  apply (surge_family_types_alike
           exampleDeploymentLabel exampleHashLabel exampleDeploymentLabelOf
           exampleDetermineReplicas
           _ _ _ _ _
           operatorv1.PrivateStrategyType
           operatorv1.NodePortServiceStrategyType);
    [reflexivity | reflexivity | reflexivity | reflexivity
    | left; reflexivity | reflexivity | right; right; reflexivity].
Defined.
